(** * Validated pipeline configuration models

    A shallow embedding of the Pydantic configuration classes of
    [foundations/01_type_system] ([lesson.py], [odibi_snippets.py] and
    [exercises.py]) and the properties of their validators.

    Python values are modelled as follows.
    - [str] is [string]; the character functions below follow Python on code
      points below 128 ([Py.isascii]), and statements that depend on the
      classification of characters carry that hypothesis.
    - [Optional[T]] is [option T]; [None] is [None].
    - [int] is [Z].
    - A constructor call either returns the instance or raises
      [ValidationError]; this is [Py.result]. *)

From Stdlib Require Import String Ascii List ZArith Bool Lia.
Import ListNotations.
Local Open Scope string_scope.

(* ===================================================================== *)
(** ** Python and Pydantic primitives used by the sources *)
(* ===================================================================== *)

Module Py.

(** Outcome of a validator or of a model constructor: the value, or the
    errors that Pydantic gathers in one [ValidationError].  An error raised
    by a validator of the sources is its [ValueError] message; an error of
    a built-in constraint is its Pydantic error type. *)
Inductive result (A : Type) : Type :=
| Ok (a : A)
| ValidationError (errors : list string).
Arguments Ok {A} a.
Arguments ValidationError {A} errors.

Definition errors_of {A} (r : result A) : list string :=
  match r with
  | Ok _ => []
  | ValidationError es => es
  end.

Definition is_ok {A} (r : result A) : bool :=
  match r with
  | Ok _ => true
  | ValidationError _ => false
  end.

(** Values of type [Any] (option dictionaries, keyword arguments). *)
#[warnings="-register-all"]
Inductive object : Type :=
| PyNone
| PyBool (b : bool)
| PyInt (z : Z)
| PyStr (s : string)
| PyList (items : list object)
| PyDict (items : list (string * object)).

Definition kwargs := list (string * object).

(** Truth value of an [Optional[str]]: [None] and the empty string are
    false. *)
Definition truthy (o : option string) : bool :=
  match o with
  | None => false
  | Some s => negb (s =? "")
  end.

(** Truth value of an optional model instance: a [BaseModel] instance
    defines neither [__bool__] nor [__len__], so only [None] is false. *)
Definition truthy_model {A} (o : option A) : bool :=
  match o with
  | None => false
  | Some _ => true
  end.

(** [x is not None] *)
Definition is_not_None {A} (o : option A) : bool :=
  match o with
  | None => false
  | Some _ => true
  end.

(** [any(xs)] and [sum(xs)] over booleans. *)
Definition any (xs : list bool) : bool := existsb (fun b => b) xs.

Definition sum (xs : list bool) : nat :=
  fold_right (fun (b : bool) n => (if b then 1 else 0) + n)%nat 0%nat xs.

(** *** Characters *)

Definition ord (c : ascii) : nat := nat_of_ascii c.

Definition between (lo hi : nat) (c : ascii) : bool :=
  (lo <=? ord c)%nat && (ord c <=? hi)%nat.

Definition isascii_char (c : ascii) : bool := (ord c <? 128)%nat.

Definition isdigit_char : ascii -> bool := between 48 57.
Definition isupper_char : ascii -> bool := between 65 90.
Definition islower_char : ascii -> bool := between 97 122.

Definition isalnum_char (c : ascii) : bool :=
  isdigit_char c || isupper_char c || islower_char c.

(** Whitespace of [str]: TAB, LF, VT, FF, CR, the separators FS, GS, RS, US
    and SPACE. *)
Definition isspace_char (c : ascii) : bool :=
  between 9 13 c || between 28 32 c.

Definition lower_char (c : ascii) : ascii :=
  if isupper_char c then ascii_of_nat (ord c + 32) else c.

(** *** Strings *)

Fixpoint all_chars (p : ascii -> bool) (s : string) : bool :=
  match s with
  | EmptyString => true
  | String c r => p c && all_chars p r
  end.

(** [s.isascii()] *)
Definition isascii : string -> bool := all_chars isascii_char.

(** [s.isalnum()]: every character is alphanumeric and there is at least
    one character. *)
Definition isalnum (s : string) : bool :=
  negb (s =? "") && all_chars isalnum_char s.

(** [s.lower()] *)
Fixpoint lower (s : string) : string :=
  match s with
  | EmptyString => EmptyString
  | String c r => String (lower_char c) (lower r)
  end.

(** [s.replace(old, new)] for a one-character [old]. *)
Fixpoint replace (old : ascii) (new : string) (s : string) : string :=
  match s with
  | EmptyString => EmptyString
  | String c r =>
      if Ascii.eqb c old then new ++ replace old new r
      else String c (replace old new r)
  end.

Fixpoint lstrip (s : string) : string :=
  match s with
  | EmptyString => EmptyString
  | String c r => if isspace_char c then lstrip r else s
  end.

Fixpoint rstrip (s : string) : string :=
  match s with
  | EmptyString => EmptyString
  | String c r =>
      match rstrip r with
      | EmptyString => if isspace_char c then EmptyString else String c EmptyString
      | r' => String c r'
      end
  end.

(** [s.strip()] *)
Definition strip (s : string) : string := rstrip (lstrip s).

(** [len(set(v))] for a list of strings. *)
Definition len_set (v : list string) : nat :=
  length (nodup string_dec v).

(** *** Field constraints and model configuration *)

(** [Field(ge=..., le=...)] on an [int] field. *)
Definition below (ge : option Z) (v : Z) : bool :=
  match ge with
  | Some lo => (v <? lo)%Z
  | None => false
  end.

Definition above (le : option Z) (v : Z) : bool :=
  match le with
  | Some hi => (hi <? v)%Z
  | None => false
  end.

Definition Field_int (ge le : option Z) (v : Z) : result Z :=
  if below ge v then ValidationError ["greater_than_equal"]
  else if above le v then ValidationError ["less_than_equal"]
  else Ok v.

(** [Field(pattern="^(a|b|c)$")]: the string is one of the alternatives. *)
Definition Field_one_of (alternatives : list string) (v : string) : result string :=
  if existsb (String.eqb v) alternatives then Ok v
  else ValidationError ["string_pattern_mismatch"].

(** The part of a model's [model_config] that governs attribute assignment.
    A class that sets no [model_config] has [default_config]. *)
Record ConfigDict : Type := {
  frozen : bool;
  validate_assignment : bool
}.

Definition default_config : ConfigDict :=
  {| frozen := false; validate_assignment := false |}.

(** [BaseModel.__setattr__] on a declared field: refused on a frozen model,
    re-validated under [validate_assignment], stored as given otherwise. *)
Definition setattr {M V : Type} (cfg : ConfigDict)
    (revalidate : M -> result M) (store : M -> V -> M)
    (self : M) (value : V) : result M :=
  if frozen cfg then ValidationError ["frozen_instance"]
  else if validate_assignment cfg then revalidate (store self value)
  else Ok (store self value).

(** *** Dictionaries *)

(** A [dict] with string keys, in insertion order. *)
Definition dict (V : Type) : Type := list (string * V).

(** [d.get(k)] *)
Fixpoint dict_get {V : Type} (k : string) (d : dict V) : option V :=
  match d with
  | [] => None
  | (k', v') :: rest => if k' =? k then Some v' else dict_get k rest
  end.

(** [d[k] = v]: a key that is present keeps its place and takes the new
    value; a new key goes last. *)
Fixpoint dict_set {V : Type} (k : string) (v : V) (d : dict V) : dict V :=
  match d with
  | [] => [(k, v)]
  | (k', v') :: rest =>
      if k' =? k then (k, v) :: rest else (k', v') :: dict_set k v rest
  end.

Definition keys {V : Type} (d : dict V) : list string := map fst d.

End Py.

Import Py.

(* ===================================================================== *)
(** ** lesson.py *)
(* ===================================================================== *)

Module Lesson.

(** [def process_items(items)]: the dict comprehension
    [{item: len(item) for item in items}]. *)
Definition process_items (items : list string) : dict nat :=
  fold_left (fun d item => dict_set item (String.length item) d) items [].

(** [class ConnectionConfig(BaseModel)]: field constraints. *)
Module ConnectionConfig.

Record t : Type := {
  name : string;
  timeout : Z;
  max_retries : Z;
  tags : list string;
  metadata : kwargs
}.

Definition timeout_field : Z -> result Z := Field_int (Some 1%Z) (Some 300%Z).
Definition max_retries_field : Z -> result Z := Field_int (Some 0%Z) (Some 10%Z).

Definition init (name : string) (timeout max_retries : Z)
    (tags : list string) (metadata : kwargs) : result t :=
  match timeout_field timeout, max_retries_field max_retries with
  | Ok t', Ok m' =>
      Ok {| name := name; timeout := t'; max_retries := m';
            tags := tags; metadata := metadata |}
  | r1, r2 => ValidationError (errors_of r1 ++ errors_of r2)
  end.

End ConnectionConfig.

(** [class NodeConfig(BaseModel)]: custom field validators. *)
Module NodeConfig.

Record t : Type := {
  name : string;
  depends_on : list string;
  timeout : option Z
}.

Definition validate_name (v : string) : result string :=
  let v := strip v in
  if v =? "" then ValidationError ["Node name cannot be empty"]
  else if negb (isalnum (replace "_" "" v)) then
    ValidationError ["Node name '" ++ v ++ "' must be alphanumeric with underscores"]
  else Ok (lower v).

Definition validate_dependencies (v : list string) : result (list string) :=
  if negb (length v =? len_set v)%nat then
    ValidationError ["Duplicate dependencies not allowed"]
  else Ok v.

Definition init (name : string) (depends_on : list string)
    (timeout : option Z) : result t :=
  match validate_name name, validate_dependencies depends_on with
  | Ok n, Ok d => Ok {| name := n; depends_on := d; timeout := timeout |}
  | r1, r2 => ValidationError (errors_of r1 ++ errors_of r2)
  end.

End NodeConfig.

Inductive WriteMode : Type := OVERWRITE | APPEND.

(** [class WriteConfig(BaseModel)]: a validator across two fields. *)
Module WriteConfig.

Record t : Type := {
  connection : string;
  path : option string;
  table : option string;
  mode : WriteMode
}.

Definition check_path_or_table (self : t) : result t :=
  if negb (truthy (path self)) && negb (truthy (table self)) then
    ValidationError ["Either 'path' or 'table' must be provided"]
  else if truthy (path self) && truthy (table self) then
    ValidationError ["Cannot specify both 'path' and 'table'"]
  else Ok self.

Definition init (connection : string) (path table : option string)
    (mode : WriteMode) : result t :=
  check_path_or_table
    {| connection := connection; path := path; table := table; mode := mode |}.

End WriteConfig.

(** [class ReadConfig(BaseModel)]: [path] is required, there is no [table]. *)
Module ReadConfig.

Record t : Type := {
  connection : string;
  format : string;
  path : string;
  options : kwargs
}.

Definition init (connection format path : string) (options : kwargs) : result t :=
  Ok {| connection := connection; format := format; path := path;
        options := options |}.

End ReadConfig.

(** [class PipelineNode(BaseModel)] *)
Module PipelineNode.

Record t : Type := {
  name : string;
  read : option ReadConfig.t;
  write : option WriteConfig.t
}.

Definition check_has_operation (self : t) : result t :=
  if negb (truthy_model (read self)) && negb (truthy_model (write self)) then
    ValidationError ["Node '" ++ name self ++ "' must have at least one operation"]
  else Ok self.

Definition init (name : string) (read : option ReadConfig.t)
    (write : option WriteConfig.t) : result t :=
  check_has_operation {| name := name; read := read; write := write |}.

End PipelineNode.

(** [class TransformStep(BaseModel)]: two candidate fields. *)
Module TransformStep.

Record t : Type := {
  sql : option string;
  function : option string;
  params : kwargs
}.

Definition check_exactly_one (self : t) : result t :=
  if negb (truthy (sql self)) && negb (truthy (function self)) then
    ValidationError ["Must provide either 'sql' or 'function'"]
  else if truthy (sql self) && truthy (function self) then
    ValidationError ["Cannot provide both 'sql' and 'function'"]
  else Ok self.

Definition init (sql function : option string) (params : kwargs) : result t :=
  check_exactly_one {| sql := sql; function := function; params := params |}.

End TransformStep.

(** [class TransformConfig(BaseModel)] *)
Module TransformConfig.

Record t : Type := {
  steps : list TransformStep.t
}.

Definition validate_non_empty (v : list TransformStep.t) : result (list TransformStep.t) :=
  match v with
  | [] => ValidationError ["Transform must have at least one step"]
  | _ => Ok v
  end.

Definition init (steps : list TransformStep.t) : result t :=
  match validate_non_empty steps with
  | Ok s => Ok {| steps := s |}
  | ValidationError es => ValidationError es
  end.

End TransformConfig.

(** [class CompleteNodeConfig(BaseModel)] *)
Module CompleteNodeConfig.

Record t : Type := {
  name : string;
  description : option string;
  depends_on : list string;
  read : option ReadConfig.t;
  transform : option TransformConfig.t;
  write : option WriteConfig.t
}.

Definition validate_name (v : string) : result string :=
  let v := lower (strip v) in
  if negb (isalnum (replace "_" "" v)) then
    ValidationError ["Name must be alphanumeric with underscores"]
  else Ok v.

Definition check_has_operation (self : t) : result t :=
  if negb (any [truthy_model (read self); truthy_model (transform self);
                truthy_model (write self)]) then
    ValidationError ["Node '" ++ name self ++ "' must have at least one operation"]
  else Ok self.

(** The field validator runs first; the model validator runs on the built
    instance only when no field failed. *)
Definition init (name : string) (description : option string)
    (depends_on : list string) (read : option ReadConfig.t)
    (transform : option TransformConfig.t) (write : option WriteConfig.t)
    : result t :=
  match validate_name name with
  | Ok n =>
      check_has_operation
        {| name := n; description := description; depends_on := depends_on;
           read := read; transform := transform; write := write |}
  | ValidationError es => ValidationError es
  end.

(** The invariant: one of the three operations is present. *)
Definition has_operation (self : t) : bool :=
  is_not_None (read self) || is_not_None (transform self)
  || is_not_None (write self).

(** The class body sets no [model_config]. *)
Definition model_config : ConfigDict := default_config.

Definition with_read (self : t) (v : option ReadConfig.t) : t :=
  {| name := name self; description := description self;
     depends_on := depends_on self; read := v; transform := transform self;
     write := write self |}.

End CompleteNodeConfig.

End Lesson.

(* ===================================================================== *)
(** ** odibi_snippets.py *)
(* ===================================================================== *)

Module Odibi.

Inductive WriteMode : Type := OVERWRITE | APPEND.

(** [class EngineType(str, Enum)] *)
Inductive EngineType : Type := SPARK | PANDAS.

Definition EngineType_value (e : EngineType) : string :=
  match e with
  | SPARK => "spark"
  | PANDAS => "pandas"
  end.

(** [class ConnectionType(str, Enum)] *)
Inductive ConnectionType : Type := LOCAL | AZURE_BLOB | DELTA | SQL_SERVER.

Definition ConnectionType_value (e : ConnectionType) : string :=
  match e with
  | LOCAL => "local"
  | AZURE_BLOB => "azure_blob"
  | DELTA => "delta"
  | SQL_SERVER => "sql_server"
  end.

(** The values of [class WriteMode(str, Enum)]. *)
Definition WriteMode_value (e : WriteMode) : string :=
  match e with
  | OVERWRITE => "overwrite"
  | APPEND => "append"
  end.

(** [class LogLevel(str, Enum)] *)
Inductive LogLevel : Type := DEBUG | INFO | WARNING | ERROR.

Definition LogLevel_value (e : LogLevel) : string :=
  match e with
  | DEBUG => "DEBUG"
  | INFO => "INFO"
  | WARNING => "WARNING"
  | ERROR => "ERROR"
  end.

(** [class ReadConfig(BaseModel)] *)
Module ReadConfig.

Record t : Type := {
  connection : string;
  format : string;
  table : option string;
  path : option string;
  options : kwargs
}.

Definition check_table_or_path (self : t) : result t :=
  if negb (truthy (table self)) && negb (truthy (path self)) then
    ValidationError ["Either 'table' or 'path' must be provided for read config"]
  else Ok self.

Definition init (connection format : string) (table path : option string)
    (options : kwargs) : result t :=
  check_table_or_path
    {| connection := connection; format := format; table := table;
       path := path; options := options |}.

(** The class body sets no [model_config]. *)
Definition model_config : ConfigDict := default_config.

Definition with_path (self : t) (v : option string) : t :=
  {| connection := connection self; format := format self;
     table := table self; path := v; options := options self |}.

End ReadConfig.

(** [class TransformStep(BaseModel)]: three candidate fields. *)
Module TransformStep.

Record t : Type := {
  sql : option string;
  function : option string;
  operation : option string;
  params : kwargs
}.

Definition check_step_type (self : t) : result t :=
  let step_types := [sql self; function self; operation self] in
  if negb (sum (map is_not_None step_types) =? 1)%nat then
    ValidationError
      ["Exactly one of 'sql', 'function', or 'operation' must be provided"]
  else Ok self.

Definition init (sql function operation : option string) (params : kwargs)
    : result t :=
  check_step_type
    {| sql := sql; function := function; operation := operation;
       params := params |}.

Definition model_config : ConfigDict := default_config.

Definition with_sql (self : t) (v : option string) : t :=
  {| sql := v; function := function self; operation := operation self;
     params := params self |}.

End TransformStep.

(** [class ValidationConfig(BaseModel)] *)
Module ValidationConfig.

Record t : Type := {
  schema_validation : option kwargs;
  not_empty : bool;
  no_nulls : list string
}.

End ValidationConfig.

(** [class WriteConfig(BaseModel)] *)
Module WriteConfig.

Record t : Type := {
  connection : string;
  format : string;
  table : option string;
  path : option string;
  mode : WriteMode;
  options : kwargs
}.

Definition check_table_or_path (self : t) : result t :=
  if negb (truthy (table self)) && negb (truthy (path self)) then
    ValidationError ["Either 'table' or 'path' must be provided for write config"]
  else Ok self.

Definition init (connection format : string) (table path : option string)
    (mode : WriteMode) (options : kwargs) : result t :=
  check_table_or_path
    {| connection := connection; format := format; table := table;
       path := path; mode := mode; options := options |}.

Definition model_config : ConfigDict := default_config.

Definition with_path (self : t) (v : option string) : t :=
  {| connection := connection self; format := format self;
     table := table self; path := v; mode := mode self;
     options := options self |}.

End WriteConfig.

(** [class NodeConfig(BaseModel)].  The annotation of [transform] names
    [TransformConfig], which [odibi_snippets.py] neither defines nor
    imports; the type of that field is a parameter of the model. *)
Module NodeConfig.

Section WithTransformConfig.

Variable TransformConfig : Type.

Record t : Type := {
  name : string;
  description : option string;
  depends_on : list string;
  read : option ReadConfig.t;
  transform : option TransformConfig;
  write : option WriteConfig.t;
  cache : bool;
  validation : option ValidationConfig.t
}.

Definition check_at_least_one_operation (self : t) : result t :=
  if negb (any [truthy_model (read self); truthy_model (transform self);
                truthy_model (write self)]) then
    ValidationError
      ["Node '" ++ name self
         ++ "' must have at least one of: read, transform, write"]
  else Ok self.

Definition init (name : string) (description : option string)
    (depends_on : list string) (read : option ReadConfig.t)
    (transform : option TransformConfig) (write : option WriteConfig.t)
    (cache : bool) (validation : option ValidationConfig.t) : result t :=
  check_at_least_one_operation
    {| name := name; description := description; depends_on := depends_on;
       read := read; transform := transform; write := write;
       cache := cache; validation := validation |}.

(** The invariant: one of the three operations is present. *)
Definition has_operation (self : t) : bool :=
  is_not_None (read self) || is_not_None (transform self)
  || is_not_None (write self).

(** The class body sets no [model_config]. *)
Definition model_config : ConfigDict := default_config.

Definition with_read (self : t) (v : option ReadConfig.t) : t :=
  {| name := name self; description := description self;
     depends_on := depends_on self; read := v; transform := transform self;
     write := write self; cache := cache self;
     validation := validation self |}.

End WithTransformConfig.

Arguments name {TransformConfig} _.
Arguments description {TransformConfig} _.
Arguments depends_on {TransformConfig} _.
Arguments read {TransformConfig} _.
Arguments transform {TransformConfig} _.
Arguments write {TransformConfig} _.
Arguments cache {TransformConfig} _.
Arguments validation {TransformConfig} _.
Arguments check_at_least_one_operation {TransformConfig} self.
Arguments init {TransformConfig}.
Arguments has_operation {TransformConfig} self.
Arguments with_read {TransformConfig} self v.

End NodeConfig.

(** [class RetryConfig(BaseModel)] *)
Module RetryConfig.

Record t : Type := {
  enabled : bool;
  max_attempts : Z;
  backoff : string
}.

Definition max_attempts_field : Z -> result Z :=
  Field_int (Some 1%Z) (Some 10%Z).

Definition backoff_field : string -> result string :=
  Field_one_of ["exponential"; "linear"; "constant"].

Definition init (enabled : bool) (max_attempts : Z) (backoff : string)
    : result t :=
  match max_attempts_field max_attempts, backoff_field backoff with
  | Ok m, Ok b => Ok {| enabled := enabled; max_attempts := m; backoff := b |}
  | r1, r2 => ValidationError (errors_of r1 ++ errors_of r2)
  end.

End RetryConfig.

End Odibi.

(* ===================================================================== *)
(** ** exercises.py *)
(* ===================================================================== *)

Module Exercises.

(** [class JobConfig(BaseModel): pass].  The body declares no field and no
    validator; keyword arguments that name no field are ignored. *)
Module JobConfig.

Record t : Type := instance { }.

Definition init (data : kwargs) : result t := Ok instance.

End JobConfig.

(** [class PipelineConfig(BaseModel): pass] *)
Module PipelineConfig.

Record t : Type := instance { }.

Definition init (data : kwargs) : result t := Ok instance.

End PipelineConfig.

End Exercises.

(* ===================================================================== *)
(** ** Reading a pipeline document *)
(* ===================================================================== *)

(** The job names and dependency lists that a document of keyword arguments
    carries under ["jobs"], and the two conditions on them that the
    properties below speak about. *)
Module Document.

Fixpoint get (key : string) (d : kwargs) : option object :=
  match d with
  | [] => None
  | (k, v) :: rest => if k =? key then Some v else get key rest
  end.

Definition strings (o : object) : list string :=
  match o with
  | PyList items =>
      flat_map (fun x => match x with PyStr s => [s] | _ => [] end) items
  | _ => []
  end.

Definition job (o : object) : list (string * list string) :=
  match o with
  | PyDict d =>
      match get "name" d with
      | Some (PyStr n) =>
          [(n, match get "depends_on" d with
               | Some l => strings l
               | None => []
               end)]
      | _ => []
      end
  | _ => []
  end.

Definition jobs (data : kwargs) : list (string * list string) :=
  match get "jobs" data with
  | Some (PyList js) => flat_map job js
  | _ => []
  end.

Definition mem (x : string) (xs : list string) : bool :=
  existsb (String.eqb x) xs.

(** [a] lists [b] in its [depends_on]. *)
Definition depends (js : list (string * list string)) (a b : string) : bool :=
  existsb (fun j => (fst j =? a) && mem b (snd j)) js.

(** Some [depends_on] entry is not a declared job name. *)
Definition dangling (js : list (string * list string)) : bool :=
  existsb (fun j => existsb (fun d => negb (mem d (map fst js))) (snd j)) js.

End Document.

(** The format [^[a-z0-9_]+$]. *)
Definition identifier_char (c : ascii) : bool :=
  islower_char c || isdigit_char c || Ascii.eqb c "_".

Definition matches_identifier (s : string) : bool :=
  negb (s =? "") && all_chars identifier_char s.

(** Trimmed, then lowercased. *)
Definition normalize (s : string) : string := lower (strip s).

(** Some character is a letter or a digit. *)
Fixpoint has_alnum (s : string) : bool :=
  match s with
  | EmptyString => false
  | String c r => isalnum_char c || has_alnum r
  end.

(** Letters, digits and the underscore. *)
Definition word_char (c : ascii) : bool :=
  isalnum_char c || Ascii.eqb c "_".

(** Case analysis over the 256 characters. *)
Ltac each_char c :=
  destruct c as [[] [] [] [] [] [] [] []]; vm_compute; reflexivity.

(** The field holds a string that is not empty. *)
Definition nonempty (o : option string) : Prop :=
  exists s, o = Some s /\ s <> "".

(** The field was given a value, empty or not. *)
Definition given (o : option string) : Prop := o <> None.

(** Exactly one of three optional fields was given a value. *)
Definition exactly_one_given (a b c : option string) : Prop :=
  (given a /\ b = None /\ c = None) \/
  (a = None /\ given b /\ c = None) \/
  (a = None /\ b = None /\ given c).

(** A pipeline document whose job [load] depends on a name that no job
    declares. *)
Definition dangling_document : kwargs :=
  [("pipeline", PyStr "daily");
   ("jobs",
    PyList
      [PyDict [("name", PyStr "extract")];
       PyDict [("name", PyStr "load");
               ("depends_on", PyList [PyStr "never_declared"])]])].

(** A pipeline document whose jobs [a] and [b] depend on each other. *)
Definition cyclic_document : kwargs :=
  [("pipeline", PyStr "daily");
   ("jobs",
    PyList
      [PyDict [("name", PyStr "a"); ("depends_on", PyList [PyStr "b"])];
       PyDict [("name", PyStr "b"); ("depends_on", PyList [PyStr "a"])]])].

(** The step was returned by the constructor of [lesson.TransformStep]. *)
Definition built_step (s : Lesson.TransformStep.t) : Prop :=
  exists sql function params,
    Lesson.TransformStep.init sql function params = Ok s.

(** Exactly one of [sql], [function] of the step is a non-empty string. *)
Definition one_step_kind (s : Lesson.TransformStep.t) : bool :=
  xorb (truthy (Lesson.TransformStep.sql s))
       (truthy (Lesson.TransformStep.function s)).

(** One step of the comprehension in [process_items]. *)
Definition add_length (d : dict nat) (item : string) : dict nat :=
  dict_set item (String.length item) d.

(* ===================================================================== *)
(** ** Properties *)
(* ===================================================================== *)

(** *** Characters and strings *)

Lemma word_char_lower (c : ascii) :
  word_char c = identifier_char (lower_char c).
Proof. each_char c. Qed.

Lemma isalnum_char_lower (c : ascii) :
  isalnum_char (lower_char c) = isalnum_char c.
Proof. each_char c. Qed.

Lemma lower_char_idempotent (c : ascii) :
  lower_char (lower_char c) = lower_char c.
Proof. each_char c. Qed.

Lemma underscore_not_alnum (c : ascii) :
  Ascii.eqb c "_" = true -> isalnum_char c = false.
Proof. intros H. apply Ascii.eqb_eq in H. subst c. reflexivity. Qed.

Lemma all_word_lower (s : string) :
  all_chars word_char s = all_chars identifier_char (lower s).
Proof.
  induction s as [|c r IH]; simpl; [reflexivity|].
  now rewrite word_char_lower, IH.
Qed.

Lemma has_alnum_lower (s : string) : has_alnum (lower s) = has_alnum s.
Proof.
  induction s as [|c r IH]; simpl; [reflexivity|].
  now rewrite isalnum_char_lower, IH.
Qed.

Lemma lower_idempotent (s : string) : lower (lower s) = lower s.
Proof.
  induction s as [|c r IH]; simpl; [reflexivity|].
  now rewrite lower_char_idempotent, IH.
Qed.

Lemma has_alnum_nonempty (s : string) :
  has_alnum s = true -> (s =? "") = false.
Proof. destruct s; [discriminate | reflexivity]. Qed.

Lemma all_alnum_without_underscores (s : string) :
  all_chars isalnum_char (replace "_" "" s) = all_chars word_char s.
Proof.
  induction s as [|c r IH]; simpl; [reflexivity|].
  unfold word_char at 1.
  destruct (Ascii.eqb c "_") eqn:E; simpl.
  - now rewrite IH, orb_true_r.
  - now rewrite IH, orb_false_r.
Qed.

(** [v.replace("_", "").isalnum()] holds exactly of the strings made of
    letters, digits and underscores that hold a letter or a digit. *)
Lemma isalnum_without_underscores (s : string) :
  isalnum (replace "_" "" s) = all_chars word_char s && has_alnum s.
Proof.
  induction s as [|c r IH]; [reflexivity|].
  cbn [replace all_chars has_alnum].
  unfold word_char at 1.
  destruct (Ascii.eqb c "_") eqn:E.
  - cbn [append]. rewrite IH, (underscore_not_alnum c E), orb_true_r.
    reflexivity.
  - unfold isalnum. cbn [String.eqb all_chars negb andb].
    rewrite all_alnum_without_underscores, orb_false_r.
    destruct (isalnum_char c); cbn [andb orb];
      [now rewrite andb_true_r | reflexivity].
Qed.

Lemma identifier_with_alnum (s : string) :
  matches_identifier s = true /\ has_alnum s = true <->
  all_chars identifier_char s && has_alnum s = true.
Proof.
  unfold matches_identifier. split.
  - intros [H1 H2]. apply andb_true_iff in H1 as [_ H1].
    now rewrite H1, H2.
  - intros H. apply andb_true_iff in H as [H1 H2].
    now rewrite (has_alnum_nonempty s H2), H1, H2.
Qed.

(** *** Name validators *)

Lemma NodeConfig_validate_name_ok (v n : string) :
  Lesson.NodeConfig.validate_name v = Ok n <->
  n = normalize v /\ matches_identifier n = true /\ has_alnum n = true.
Proof.
  unfold Lesson.NodeConfig.validate_name, normalize.
  cbv zeta. set (s := strip v).
  rewrite isalnum_without_underscores.
  split.
  - destruct (s =? "") eqn:E; [discriminate|].
    destruct (all_chars word_char s && has_alnum s) eqn:A; cbn [negb];
      [|discriminate].
    intros H. injection H as <-. split; [reflexivity|].
    apply identifier_with_alnum.
    now rewrite <- all_word_lower, has_alnum_lower.
  - intros [-> H]. apply identifier_with_alnum in H.
    rewrite <- all_word_lower, has_alnum_lower in H. rewrite H.
    apply andb_true_iff in H as [_ H].
    now rewrite (has_alnum_nonempty s H).
Qed.

Lemma CompleteNodeConfig_validate_name_ok (v n : string) :
  Lesson.CompleteNodeConfig.validate_name v = Ok n <->
  n = normalize v /\ matches_identifier n = true /\ has_alnum n = true.
Proof.
  unfold Lesson.CompleteNodeConfig.validate_name, normalize.
  cbv zeta. set (s := lower (strip v)).
  rewrite isalnum_without_underscores, all_word_lower.
  assert (L : lower s = s) by (subst s; apply lower_idempotent).
  rewrite L. split.
  - destruct (all_chars identifier_char s && has_alnum s) eqn:A; cbn [negb];
      [|discriminate].
    intros H. injection H as <-. split; [reflexivity|].
    now apply identifier_with_alnum.
  - intros [-> H]. apply identifier_with_alnum in H. now rewrite H.
Qed.

(** C3 (as amended).  For an input string of ASCII characters, each of the
    two name validators ([NodeConfig.validate_name] and
    [CompleteNodeConfig.validate_name]) returns a name [n] exactly when [n]
    is the input trimmed and lowercased, [n] matches [^[a-z0-9_]+$], and [n]
    holds at least one letter or digit.  So the stored name is always the
    normalized string, and a name made of underscores only is refused. *)
Theorem validate_name_normalized (v n : string) :
  isascii v = true ->
  (Lesson.NodeConfig.validate_name v = Ok n <->
     n = normalize v /\ matches_identifier n = true /\ has_alnum n = true)
  /\
  (Lesson.CompleteNodeConfig.validate_name v = Ok n <->
     n = normalize v /\ matches_identifier n = true /\ has_alnum n = true).
Proof.
  intros _. split.
  - apply NodeConfig_validate_name_ok.
  - apply CompleteNodeConfig_validate_name_ok.
Qed.

(** The spec's example: ["Job_1 "] is stored as ["job_1"]. *)
Lemma validate_name_normalized_witness :
  isascii "Job_1 " = true /\
  Lesson.NodeConfig.validate_name "Job_1 " = Ok "job_1" /\
  Lesson.CompleteNodeConfig.validate_name "Job_1 " = Ok "job_1".
Proof.
  pose proof (validate_name_normalized "Job_1 " "job_1" eq_refl) as [H1 H2].
  split; [reflexivity|]. split.
  - apply H1. repeat split.
  - apply H2. repeat split.
Defined.

(** C3 (counterexample).  The normalized name ["_"] matches
    [^[a-z0-9_]+$], and both validators refuse it. *)
Lemma underscore_name_refused :
  matches_identifier (normalize "_") = true /\
  Lesson.NodeConfig.validate_name "_" =
    ValidationError ["Node name '_' must be alphanumeric with underscores"] /\
  Lesson.CompleteNodeConfig.validate_name "_" =
    ValidationError ["Name must be alphanumeric with underscores"].
Proof. repeat split. Qed.

(** *** Presence of optional string fields *)

Lemma truthy_nonempty (o : option string) : truthy o = true <-> nonempty o.
Proof.
  unfold nonempty. destruct o as [s|]; simpl.
  - rewrite negb_true_iff, String.eqb_neq. split.
    + intros H. now exists s.
    + intros (s' & [= <-] & H). exact H.
  - split; [discriminate | intros (s & [=] & _)].
Qed.

Lemma truthy_not_nonempty (o : option string) :
  truthy o = false <-> ~ nonempty o.
Proof.
  rewrite <- truthy_nonempty. destruct (truthy o); split; intros H;
    try reflexivity; try discriminate; try (now destruct H).
Qed.

(** *** Path or table *)

(** C2 (as amended).  [lesson.WriteConfig] is built exactly when one of
    [path], [table] holds a non-empty string and the other does not (neither
    and both are refused).  [odibi_snippets.ReadConfig] and
    [odibi_snippets.WriteConfig] are built exactly when at least one of
    [table], [path] holds a non-empty string, both included.  A built
    instance holds the arguments as given. *)
Theorem path_table_rule :
  (forall c p t m,
     (is_ok (Lesson.WriteConfig.init c p t m) = true <->
        (nonempty p /\ ~ nonempty t) \/ (~ nonempty p /\ nonempty t)) /\
     (forall r, Lesson.WriteConfig.init c p t m = Ok r ->
        r = Lesson.WriteConfig.Build_t c p t m)) /\
  (forall c f t p o,
     (is_ok (Odibi.ReadConfig.init c f t p o) = true <->
        nonempty t \/ nonempty p) /\
     (forall r, Odibi.ReadConfig.init c f t p o = Ok r ->
        r = Odibi.ReadConfig.Build_t c f t p o)) /\
  (forall c f t p m o,
     (is_ok (Odibi.WriteConfig.init c f t p m o) = true <->
        nonempty t \/ nonempty p) /\
     (forall r, Odibi.WriteConfig.init c f t p m o = Ok r ->
        r = Odibi.WriteConfig.Build_t c f t p m o)).
Proof.
  split; [|split].
  - intros c p t m.
    unfold Lesson.WriteConfig.init, Lesson.WriteConfig.check_path_or_table.
    cbn [Lesson.WriteConfig.path Lesson.WriteConfig.table].
    rewrite <- (truthy_not_nonempty p), <- (truthy_not_nonempty t),
      <- (truthy_nonempty p), <- (truthy_nonempty t).
    destruct (truthy p), (truthy t); cbn; split;
      try (intros r H; congruence); intuition congruence.
  - intros c f t p o.
    unfold Odibi.ReadConfig.init, Odibi.ReadConfig.check_table_or_path.
    cbn [Odibi.ReadConfig.path Odibi.ReadConfig.table].
    rewrite <- (truthy_nonempty p), <- (truthy_nonempty t).
    destruct (truthy p), (truthy t); cbn; split;
      try (intros r H; congruence); intuition congruence.
  - intros c f t p m o.
    unfold Odibi.WriteConfig.init, Odibi.WriteConfig.check_table_or_path.
    cbn [Odibi.WriteConfig.path Odibi.WriteConfig.table].
    rewrite <- (truthy_nonempty p), <- (truthy_nonempty t).
    destruct (truthy p), (truthy t); cbn; split;
      try (intros r H; congruence); intuition congruence.
Qed.

Lemma path_table_rule_witness :
  is_ok (Lesson.WriteConfig.init "local" (Some "/data/output.csv") None
           Lesson.OVERWRITE) = true /\
  is_ok (Lesson.WriteConfig.init "local" (Some "/data/out.csv") (Some "users")
           Lesson.OVERWRITE) = false.
Proof.
  split.
  - apply (proj1 path_table_rule). left. split.
    + exists "/data/output.csv". split; [reflexivity | discriminate].
    + intros (s & [=] & _).
  - apply not_true_is_false. intros H.
    apply (proj1 path_table_rule) in H. destruct H as [[_ H] | [H _]].
    + apply H. exists "users". split; [reflexivity | discriminate].
    + apply H. exists "/data/out.csv". split; [reflexivity | discriminate].
Defined.

(** C2 (counterexample).  With both [table] and [path] set,
    [odibi_snippets.ReadConfig] and [odibi_snippets.WriteConfig] are
    built. *)
Lemma both_path_and_table_accepted :
  Odibi.ReadConfig.init "x" "csv" (Some "users") (Some "/data/users.csv") [] =
    Ok (Odibi.ReadConfig.Build_t "x" "csv" (Some "users")
          (Some "/data/users.csv") []) /\
  Odibi.WriteConfig.init "x" "csv" (Some "users") (Some "/data/users.csv")
      Odibi.OVERWRITE [] =
    Ok (Odibi.WriteConfig.Build_t "x" "csv" (Some "users")
          (Some "/data/users.csv") Odibi.OVERWRITE []).
Proof. split; reflexivity. Qed.

(** C10.  In [odibi_snippets.ReadConfig] and [odibi_snippets.WriteConfig]
    an empty string counts as absent: with [path] the empty string and
    [table] not given, or [table] the empty string and [path] not given,
    construction fails with the either-table-or-path error, whatever the
    other arguments are. *)
Theorem empty_string_counts_as_absent :
  (forall c f o,
     Odibi.ReadConfig.init c f None (Some "") o =
       ValidationError
         ["Either 'table' or 'path' must be provided for read config"] /\
     Odibi.ReadConfig.init c f (Some "") None o =
       ValidationError
         ["Either 'table' or 'path' must be provided for read config"]) /\
  (forall c f m o,
     Odibi.WriteConfig.init c f None (Some "") m o =
       ValidationError
         ["Either 'table' or 'path' must be provided for write config"] /\
     Odibi.WriteConfig.init c f (Some "") None m o =
       ValidationError
         ["Either 'table' or 'path' must be provided for write config"]).
Proof. split; intros; split; reflexivity. Qed.

(** *** Transform steps *)

(** C4 (as amended).  [odibi_snippets.TransformStep] is built exactly when
    one of [sql], [function], [operation] is given (is not [None]) and the
    other two are not; a given empty string counts.  [lesson.TransformStep]
    has the two candidates [sql] and [function] and is built exactly when
    one of them holds a non-empty string and the other does not.  A built
    step holds the arguments as given. *)
Theorem transform_step_rule :
  (forall s f o ps,
     (is_ok (Odibi.TransformStep.init s f o ps) = true <->
        exactly_one_given s f o) /\
     (forall r, Odibi.TransformStep.init s f o ps = Ok r ->
        r = Odibi.TransformStep.Build_t s f o ps)) /\
  (forall s f ps,
     (is_ok (Lesson.TransformStep.init s f ps) = true <->
        (nonempty s /\ ~ nonempty f) \/ (~ nonempty s /\ nonempty f)) /\
     (forall r, Lesson.TransformStep.init s f ps = Ok r ->
        r = Lesson.TransformStep.Build_t s f ps)).
Proof.
  split.
  - intros s f o ps.
    unfold Odibi.TransformStep.init, Odibi.TransformStep.check_step_type,
      exactly_one_given, given.
    destruct s, f, o; cbn; split;
      try (intros r H; congruence); intuition congruence.
  - intros s f ps.
    unfold Lesson.TransformStep.init, Lesson.TransformStep.check_exactly_one.
    cbn [Lesson.TransformStep.sql Lesson.TransformStep.function].
    rewrite <- (truthy_not_nonempty s), <- (truthy_not_nonempty f),
      <- (truthy_nonempty s), <- (truthy_nonempty f).
    destruct (truthy s), (truthy f); cbn; split;
      try (intros r H; congruence); intuition congruence.
Qed.

Lemma transform_step_rule_witness :
  is_ok (Odibi.TransformStep.init (Some "SELECT 1") None None []) = true /\
  is_ok (Lesson.TransformStep.init (Some "SELECT 1") None []) = true.
Proof.
  split.
  - apply (proj1 transform_step_rule). left.
    repeat split. discriminate.
  - apply (proj2 transform_step_rule). left. split.
    + exists "SELECT 1". split; [reflexivity | discriminate].
    + intros (s & [=] & _).
Defined.

(** C4 (counterexample).  [odibi_snippets.TransformStep] is built from an
    empty [sql] alone, where no candidate is non-empty, and refuses an empty
    [sql] beside [function="f"], where exactly one candidate is
    non-empty. *)
Lemma empty_sql_counts_as_given :
  ~ nonempty (Some "") /\
  Odibi.TransformStep.init (Some "") None None [] =
    Ok (Odibi.TransformStep.Build_t (Some "") None None []) /\
  Odibi.TransformStep.init (Some "") (Some "f") None [] =
    ValidationError
      ["Exactly one of 'sql', 'function', or 'operation' must be provided"].
Proof.
  repeat split. intros (s & [= <-] & H). now apply H.
Qed.

(** *** Dependency lists *)

Lemma nodup_length_le (v : list string) :
  (length (nodup string_dec v) <= length v)%nat.
Proof.
  induction v as [|x v IH]; simpl; [lia|].
  destruct (in_dec string_dec x v); simpl; lia.
Qed.

(** [len(v) == len(set(v))] says that no entry of [v] is repeated. *)
Lemma len_set_NoDup (v : list string) :
  (length v =? len_set v)%nat = true <-> NoDup v.
Proof.
  unfold len_set. rewrite Nat.eqb_eq. split.
  - induction v as [|x v IH]; simpl; intros H; [constructor|].
    destruct (in_dec string_dec x v) as [I|I]; simpl in H.
    + pose proof (nodup_length_le v). lia.
    + constructor; [exact I | apply IH; lia].
  - intros H. now rewrite (nodup_fixed_point string_dec H).
Qed.

Lemma validate_dependencies_NoDup (v : list string) :
  NoDup v -> Lesson.NodeConfig.validate_dependencies v = Ok v.
Proof.
  intros H. unfold Lesson.NodeConfig.validate_dependencies.
  apply len_set_NoDup in H. now rewrite H.
Qed.

Lemma validate_dependencies_dup (v : list string) :
  ~ NoDup v ->
  Lesson.NodeConfig.validate_dependencies v =
    ValidationError ["Duplicate dependencies not allowed"].
Proof.
  intros H. unfold Lesson.NodeConfig.validate_dependencies.
  destruct (length v =? len_set v)%nat eqn:E; [|reflexivity].
  apply len_set_NoDup in E. contradiction.
Qed.

Lemma NodeConfig_init_NoDup (v n : string) (deps : list string)
    (tm : option Z) :
  Lesson.NodeConfig.validate_name v = Ok n -> NoDup deps ->
  Lesson.NodeConfig.init v deps tm = Ok (Lesson.NodeConfig.Build_t n deps tm).
Proof.
  intros Hn Hd. unfold Lesson.NodeConfig.init.
  now rewrite Hn, (validate_dependencies_NoDup deps Hd).
Qed.

(** C6 (as amended).  For a valid name, [lesson.NodeConfig] is built from a
    [depends_on] list with no repeated entry, holding the list as given, and
    is refused with the duplicate-dependencies error when an entry is
    repeated.  Self-reference is not checked: the list holding the node's
    own name is accepted.  [odibi_snippets.NodeConfig] checks neither: it is
    built from any [depends_on] list when an operation is present. *)
Theorem depends_on_rule (v n : string) (deps : list string) (tm : option Z) :
  Lesson.NodeConfig.validate_name v = Ok n ->
  (NoDup deps ->
     Lesson.NodeConfig.init v deps tm =
       Ok (Lesson.NodeConfig.Build_t n deps tm)) /\
  (~ NoDup deps ->
     Lesson.NodeConfig.init v deps tm =
       ValidationError ["Duplicate dependencies not allowed"]) /\
  Lesson.NodeConfig.init v [n] tm = Ok (Lesson.NodeConfig.Build_t n [n] tm) /\
  (forall (T : Type) d r c val,
     Odibi.NodeConfig.init (TransformConfig := T) n d deps (Some r) None None
       c val =
       Ok (Odibi.NodeConfig.Build_t T n d deps (Some r) None None c val)).
Proof.
  intros Hn. repeat split.
  - now apply NodeConfig_init_NoDup.
  - intros Hd. unfold Lesson.NodeConfig.init.
    now rewrite Hn, (validate_dependencies_dup deps Hd).
  - apply NodeConfig_init_NoDup; [exact Hn|].
    constructor; [intros [] | constructor].
Qed.

Lemma depends_on_rule_witness :
  Lesson.NodeConfig.init "  Extract_Data  " ["source1"; "source2"] None =
    Ok (Lesson.NodeConfig.Build_t "extract_data" ["source1"; "source2"] None).
Proof.
  apply (depends_on_rule "  Extract_Data  " "extract_data"
           ["source1"; "source2"] None eq_refl).
  repeat constructor; simpl; intuition discriminate.
Defined.

(** C6 (counterexample).  A node that lists itself is built by
    [lesson.NodeConfig], and a node with a repeated entry is built by
    [odibi_snippets.NodeConfig]. *)
Lemma self_reference_accepted :
  Lesson.NodeConfig.init "a" ["a"] None =
    Ok (Lesson.NodeConfig.Build_t "a" ["a"] None) /\
  Odibi.NodeConfig.init (TransformConfig := Lesson.TransformConfig.t)
    "a" None ["b"; "b"]
    (Some (Odibi.ReadConfig.Build_t "x" "csv" None (Some "/data/a.csv") []))
    None None false None =
  Ok (Odibi.NodeConfig.Build_t Lesson.TransformConfig.t
        "a" None ["b"; "b"]
        (Some (Odibi.ReadConfig.Build_t "x" "csv" None (Some "/data/a.csv") []))
        None None false None).
Proof. split; reflexivity. Qed.

(** C5 (as amended).  No construction compares [depends_on] entries with
    the declared names.  Each node of a list of (name, [depends_on]) pairs
    is built by [lesson.NodeConfig] from its own name and its own list
    alone: when every name is valid and no list repeats an entry, every node
    is built, whichever names the lists hold. *)
Theorem undeclared_dependencies_accepted (js : list (string * list string)) :
  Forall (fun j => is_ok (Lesson.NodeConfig.validate_name (fst j)) = true
                   /\ NoDup (snd j)) js ->
  Forall (fun j => exists n,
            Lesson.NodeConfig.init (fst j) (snd j) None =
              Ok (Lesson.NodeConfig.Build_t n (snd j) None)) js.
Proof.
  intros H. eapply Forall_impl; [|exact H].
  intros [v deps] [Hv Hd]. cbn [fst snd] in *.
  destruct (Lesson.NodeConfig.validate_name v) as [n|] eqn:E;
    [|discriminate].
  exists n. now apply NodeConfig_init_NoDup.
Qed.

Lemma undeclared_dependencies_accepted_witness :
  Document.dangling [("extract", []); ("load", ["never_declared"])] = true /\
  Forall (fun j => exists n,
            Lesson.NodeConfig.init (fst j) (snd j) None =
              Ok (Lesson.NodeConfig.Build_t n (snd j) None))
    [("extract", []); ("load", ["never_declared"])].
Proof.
  split; [reflexivity|].
  apply undeclared_dependencies_accepted.
  repeat constructor; simpl; intuition discriminate.
Defined.

(** C5 (counterexample).  The document's job [load] depends on an
    undeclared name; [PipelineConfig] is built from it, and so is the node
    by [lesson.NodeConfig]. *)
Lemma dangling_reference_accepted :
  Document.dangling (Document.jobs dangling_document) = true /\
  Exercises.PipelineConfig.init dangling_document =
    Ok Exercises.PipelineConfig.instance /\
  Lesson.NodeConfig.init "load" ["never_declared"] None =
    Ok (Lesson.NodeConfig.Build_t "load" ["never_declared"] None).
Proof. repeat split. Qed.

(** C1 (the code at the failing input).  In the document, [a] depends on
    [b] and [b] on [a]; [PipelineConfig], whose body is [pass], is built
    from it. *)
Lemma cyclic_jobs_accepted :
  Document.jobs cyclic_document = [("a", ["b"]); ("b", ["a"])] /\
  Document.depends (Document.jobs cyclic_document) "a" "b" = true /\
  Document.depends (Document.jobs cyclic_document) "b" "a" = true /\
  Exercises.PipelineConfig.init cyclic_document =
    Ok Exercises.PipelineConfig.instance.
Proof. repeat split. Qed.

(** *** At least one operation *)

(** C7 (as amended).  Every [odibi_snippets.NodeConfig] and every
    [lesson.CompleteNodeConfig] has at least one of [read], [transform],
    [write] when it is built: with none of the three construction fails,
    and [odibi_snippets.NodeConfig] is built exactly when one is present.
    The predicate is not kept afterwards: assigning [read] on a built node
    is accepted and stored without the validator running again, so after
    [read = None] the node has an operation only if [transform] or [write]
    is present. *)
Theorem node_has_operation :
  (forall (T : Type) name d deps r (t : option T) w c val n,
     Odibi.NodeConfig.init name d deps r t w c val = Ok n ->
     Odibi.NodeConfig.has_operation n = true) /\
  (forall (T : Type) name d deps c val,
     Odibi.NodeConfig.init (TransformConfig := T) name d deps None None None
       c val =
     ValidationError
       ["Node '" ++ name
          ++ "' must have at least one of: read, transform, write"]) /\
  (forall name d deps r t w n,
     Lesson.CompleteNodeConfig.init name d deps r t w = Ok n ->
     Lesson.CompleteNodeConfig.has_operation n = true) /\
  (forall name d deps,
     is_ok (Lesson.CompleteNodeConfig.init name d deps None None None)
     = false) /\
  (forall (T : Type) name d deps r (t : option T) w c val,
     is_ok (Odibi.NodeConfig.init name d deps r t w c val) =
     is_not_None r || is_not_None t || is_not_None w) /\
  (forall (T : Type) (n : Odibi.NodeConfig.t T) v,
     setattr Odibi.NodeConfig.model_config
       Odibi.NodeConfig.check_at_least_one_operation
       Odibi.NodeConfig.with_read n v =
     Ok (Odibi.NodeConfig.with_read n v) /\
     Odibi.NodeConfig.has_operation (Odibi.NodeConfig.with_read n v) =
     is_not_None v || is_not_None (Odibi.NodeConfig.transform n)
     || is_not_None (Odibi.NodeConfig.write n)) /\
  (forall (n : Lesson.CompleteNodeConfig.t) v,
     setattr Lesson.CompleteNodeConfig.model_config
       Lesson.CompleteNodeConfig.check_has_operation
       Lesson.CompleteNodeConfig.with_read n v =
     Ok (Lesson.CompleteNodeConfig.with_read n v) /\
     Lesson.CompleteNodeConfig.has_operation
       (Lesson.CompleteNodeConfig.with_read n v) =
     is_not_None v || is_not_None (Lesson.CompleteNodeConfig.transform n)
     || is_not_None (Lesson.CompleteNodeConfig.write n)).
Proof.
  split; [|split; [|split; [|split; [|split; [|split]]]]].
  - intros T name d deps r t w c val n.
    unfold Odibi.NodeConfig.init, Odibi.NodeConfig.check_at_least_one_operation,
      Odibi.NodeConfig.has_operation.
    destruct r, t, w; cbn; intros [= <-]; reflexivity.
  - reflexivity.
  - intros name d deps r t w n.
    unfold Lesson.CompleteNodeConfig.init.
    destruct (Lesson.CompleteNodeConfig.validate_name name) as [m|];
      [|discriminate].
    unfold Lesson.CompleteNodeConfig.check_has_operation,
      Lesson.CompleteNodeConfig.has_operation.
    destruct r, t, w; cbn; intros [= <-]; reflexivity.
  - intros name d deps. unfold Lesson.CompleteNodeConfig.init.
    destruct (Lesson.CompleteNodeConfig.validate_name name); reflexivity.
  - intros T name d deps r t w c val.
    unfold Odibi.NodeConfig.init, Odibi.NodeConfig.check_at_least_one_operation.
    destruct r, t, w; reflexivity.
  - intros T n v. split; reflexivity.
  - intros n v. split; reflexivity.
Qed.

Lemma node_has_operation_witness :
  Lesson.CompleteNodeConfig.has_operation
    (Lesson.CompleteNodeConfig.Build_t "bronze_to_silver_users" None
       ["extract_users"]
       (Some (Lesson.ReadConfig.Build_t "bronze" "parquet" "/bronze/users" []))
       None None) = true.
Proof.
  apply (proj1 (proj2 (proj2 node_has_operation))
           "Bronze_To_Silver_Users" None ["extract_users"]
           (Some (Lesson.ReadConfig.Build_t "bronze" "parquet"
                    "/bronze/users" []))
           None None).
  reflexivity.
Defined.

(** C7 (counterexample).  A node built with [read] alone has an operation;
    the assignment [read = None] on it is accepted, and the node that
    results has none of [read], [transform], [write]. *)
Lemma operation_lost_by_assignment :
  let source := Odibi.ReadConfig.Build_t "x" "csv" None (Some "/data/a.csv") [] in
  let built :=
    Odibi.NodeConfig.Build_t Lesson.TransformConfig.t "load" None []
      (Some source) None None false None in
  let assigned :=
    Odibi.NodeConfig.Build_t Lesson.TransformConfig.t "load" None []
      None None None false None in
  Odibi.NodeConfig.init "load" None [] (Some source) None None false None
    = Ok built /\
  Odibi.NodeConfig.has_operation built = true /\
  setattr Odibi.NodeConfig.model_config
    Odibi.NodeConfig.check_at_least_one_operation
    Odibi.NodeConfig.with_read built None = Ok assigned /\
  Odibi.NodeConfig.has_operation assigned = false.
Proof. cbv zeta. repeat split. Qed.

(** *** Integer ranges *)

Lemma Field_int_range (lo hi v : Z) :
  (Field_int (Some lo) (Some hi) v = Ok v <-> (lo <= v <= hi)%Z) /\
  (is_ok (Field_int (Some lo) (Some hi) v) = false <-> (v < lo \/ hi < v)%Z).
Proof.
  unfold Field_int, below, above.
  destruct (Z.ltb_spec v lo), (Z.ltb_spec hi v); cbn;
    split; split; intros; try lia; try reflexivity; try discriminate.
Qed.

Lemma Field_int_ok (lo hi v : Z) :
  (lo <= v <= hi)%Z -> Field_int (Some lo) (Some hi) v = Ok v.
Proof. apply Field_int_range. Qed.

Lemma Field_int_error (lo hi v : Z) :
  (v < lo \/ hi < v)%Z ->
  exists e, Field_int (Some lo) (Some hi) v = ValidationError e.
Proof.
  intros H. apply Field_int_range in H.
  destruct (Field_int (Some lo) (Some hi) v) as [|e]; [discriminate|].
  now exists e.
Qed.

(** C9 (as amended).  [RetryConfig.max_attempts] accepts exactly the
    integers from 1 to 10: 0 is refused, as is every value below 1 or above
    10.  The range from 0 to 10, 0 included, is that of
    [ConnectionConfig.max_retries], which accepts exactly those integers.
    An accepted value is stored as given. *)
Theorem retry_ranges (v : Z) :
  ((1 <= v <= 10)%Z ->
     forall e, Odibi.RetryConfig.init e v "exponential" =
                 Ok (Odibi.RetryConfig.Build_t e v "exponential")) /\
  ((v < 1 \/ 10 < v)%Z ->
     forall e b, is_ok (Odibi.RetryConfig.init e v b) = false) /\
  ((0 <= v <= 10)%Z ->
     forall name tags md,
       Lesson.ConnectionConfig.init name 30 v tags md =
         Ok (Lesson.ConnectionConfig.Build_t name 30 v tags md)) /\
  ((v < 0 \/ 10 < v)%Z ->
     forall name t tags md,
       is_ok (Lesson.ConnectionConfig.init name t v tags md) = false).
Proof.
  repeat split.
  - intros H e. unfold Odibi.RetryConfig.init,
      Odibi.RetryConfig.max_attempts_field.
    now rewrite (Field_int_ok 1 10 v H).
  - intros H e b. unfold Odibi.RetryConfig.init,
      Odibi.RetryConfig.max_attempts_field.
    destruct (Field_int_error 1 10 v H) as [es ->].
    destruct (Odibi.RetryConfig.backoff_field b); reflexivity.
  - intros H name tags md. unfold Lesson.ConnectionConfig.init,
      Lesson.ConnectionConfig.max_retries_field.
    now rewrite (Field_int_ok 0 10 v H).
  - intros H name t tags md. unfold Lesson.ConnectionConfig.init,
      Lesson.ConnectionConfig.max_retries_field.
    destruct (Field_int_error 0 10 v H) as [es ->].
    destruct (Lesson.ConnectionConfig.timeout_field t); reflexivity.
Qed.

Lemma retry_ranges_witness :
  Odibi.RetryConfig.init true 1 "exponential" =
    Ok (Odibi.RetryConfig.Build_t true 1 "exponential") /\
  is_ok (Odibi.RetryConfig.init true 0 "exponential") = false /\
  is_ok (Odibi.RetryConfig.init true 11 "linear") = false /\
  Lesson.ConnectionConfig.init "db_prod" 30 0 [] [] =
    Ok (Lesson.ConnectionConfig.Build_t "db_prod" 30 0 [] []).
Proof.
  split; [|split; [|split]].
  - apply (proj1 (retry_ranges 1)). lia.
  - apply (proj1 (proj2 (retry_ranges 0))). lia.
  - apply (proj1 (proj2 (retry_ranges 11))). lia.
  - apply (proj1 (proj2 (proj2 (retry_ranges 0)))). lia.
Defined.

(** C9 (counterexample).  [RetryConfig] refuses [max_attempts = 0]. *)
Lemma zero_attempts_refused :
  Odibi.RetryConfig.init true 0 "exponential" =
    ValidationError ["greater_than_equal"].
Proof. reflexivity. Qed.

(** *** Assignment after construction *)

(** C8 (as amended).  The model validators of [ReadConfig], [WriteConfig],
    [TransformStep] and [NodeConfig] return the instance they were given
    with every field unchanged, and no class defines another method.
    Assignment to a field of a built instance is not refused: no class sets
    a frozen [model_config], so the value is stored, and no validator runs
    again. *)
Theorem validators_keep_fields_assignment_stores :
  (forall r, Odibi.ReadConfig.check_table_or_path r = Ok r \/
             is_ok (Odibi.ReadConfig.check_table_or_path r) = false) /\
  (forall r, Odibi.WriteConfig.check_table_or_path r = Ok r \/
             is_ok (Odibi.WriteConfig.check_table_or_path r) = false) /\
  (forall r, Odibi.TransformStep.check_step_type r = Ok r \/
             is_ok (Odibi.TransformStep.check_step_type r) = false) /\
  (forall (T : Type) (r : Odibi.NodeConfig.t T),
     Odibi.NodeConfig.check_at_least_one_operation r = Ok r \/
     is_ok (Odibi.NodeConfig.check_at_least_one_operation r) = false) /\
  (forall r v,
     setattr Odibi.ReadConfig.model_config
       Odibi.ReadConfig.check_table_or_path Odibi.ReadConfig.with_path r v =
     Ok (Odibi.ReadConfig.with_path r v)) /\
  (forall r v,
     setattr Odibi.WriteConfig.model_config
       Odibi.WriteConfig.check_table_or_path Odibi.WriteConfig.with_path r v =
     Ok (Odibi.WriteConfig.with_path r v)) /\
  (forall r v,
     setattr Odibi.TransformStep.model_config
       Odibi.TransformStep.check_step_type Odibi.TransformStep.with_sql r v =
     Ok (Odibi.TransformStep.with_sql r v)) /\
  (forall (T : Type) (r : Odibi.NodeConfig.t T) v,
     setattr Odibi.NodeConfig.model_config
       Odibi.NodeConfig.check_at_least_one_operation
       Odibi.NodeConfig.with_read r v =
     Ok (Odibi.NodeConfig.with_read r v)).
Proof.
  split; [|split; [|split; [|split; [|repeat split]]]].
  - intros r. unfold Odibi.ReadConfig.check_table_or_path.
    destruct (_ && _); [right | left]; reflexivity.
  - intros r. unfold Odibi.WriteConfig.check_table_or_path.
    destruct (_ && _); [right | left]; reflexivity.
  - intros r. unfold Odibi.TransformStep.check_step_type. cbv zeta.
    destruct (negb _); [right | left]; reflexivity.
  - intros T r. unfold Odibi.NodeConfig.check_at_least_one_operation.
    destruct (negb _); [right | left]; reflexivity.
Qed.

(** C8 (counterexample).  A [ReadConfig] built with [path] alone accepts the
    assignment [path = None]; the field changes, and the instance that
    results is one that construction refuses. *)
Lemma assignment_accepted :
  let built := Odibi.ReadConfig.Build_t "x" "csv" None (Some "/data/a.csv") [] in
  let assigned := Odibi.ReadConfig.Build_t "x" "csv" None None [] in
  Odibi.ReadConfig.init "x" "csv" None (Some "/data/a.csv") [] = Ok built /\
  setattr Odibi.ReadConfig.model_config Odibi.ReadConfig.check_table_or_path
    Odibi.ReadConfig.with_path built None = Ok assigned /\
  Odibi.ReadConfig.path assigned <> Odibi.ReadConfig.path built /\
  is_ok (Odibi.ReadConfig.check_table_or_path assigned) = false.
Proof. cbv zeta. repeat split. discriminate. Qed.

(* ===================================================================== *)
(** ** Further properties of the validators *)
(* ===================================================================== *)

(** *** Trimming *)

Lemma identifier_char_not_space (c : ascii) :
  identifier_char c = true -> isspace_char c = false.
Proof. destruct c as [[] [] [] [] [] [] [] []]; vm_compute; congruence. Qed.

Lemma identifier_char_lower (c : ascii) :
  identifier_char c = true -> lower_char c = c.
Proof. destruct c as [[] [] [] [] [] [] [] []]; vm_compute; congruence. Qed.

Lemma lstrip_identifier (s : string) :
  all_chars identifier_char s = true -> lstrip s = s.
Proof.
  destruct s as [|c r]; simpl; [reflexivity|].
  intros H. apply andb_true_iff in H as [H _].
  now rewrite (identifier_char_not_space c H).
Qed.

Lemma rstrip_identifier (s : string) :
  all_chars identifier_char s = true -> rstrip s = s.
Proof.
  induction s as [|c r IH]; simpl; [reflexivity|].
  intros H. apply andb_true_iff in H as [Hc Hr].
  rewrite (IH Hr), (identifier_char_not_space c Hc).
  destruct r; reflexivity.
Qed.

Lemma lower_identifier (s : string) :
  all_chars identifier_char s = true -> lower s = s.
Proof.
  induction s as [|c r IH]; simpl; [reflexivity|].
  intros H. apply andb_true_iff in H as [Hc Hr].
  now rewrite (identifier_char_lower c Hc), (IH Hr).
Qed.

Lemma normalize_identifier (s : string) :
  matches_identifier s = true -> normalize s = s.
Proof.
  unfold matches_identifier, normalize, strip. intros H.
  apply andb_true_iff in H as [_ H].
  now rewrite (lstrip_identifier s H), (rstrip_identifier s H),
    (lower_identifier s H).
Qed.

Lemma lstrip_all_space (s : string) :
  all_chars isspace_char (lstrip s) = all_chars isspace_char s.
Proof.
  induction s as [|c r IH]; simpl; [reflexivity|].
  destruct (isspace_char c) eqn:E; simpl; [exact IH | now rewrite E].
Qed.

Lemma rstrip_empty (s : string) :
  rstrip s = "" <-> all_chars isspace_char s = true.
Proof.
  induction s as [|c r IH]; simpl; [tauto|].
  destruct (rstrip r) as [|c' r'] eqn:E.
  - destruct (isspace_char c); simpl.
    + split; [intros _; now apply IH | reflexivity].
    + split; discriminate.
  - split; [discriminate|]. intros H.
    apply andb_true_iff in H as [_ H]. apply IH in H. discriminate.
Qed.

(** [v.strip()] is empty exactly when [v] holds whitespace only. *)
Lemma strip_empty (v : string) :
  strip v = "" <-> all_chars isspace_char v = true.
Proof. unfold strip. now rewrite rstrip_empty, lstrip_all_space. Qed.

(** *** Names *)

(** X1.  On an input of ASCII characters the two name validators of
    [lesson.py] accept the same names and return the same stored name,
    although [NodeConfig.validate_name] lowercases after its check and
    [CompleteNodeConfig.validate_name] before it. *)
Theorem name_validators_agree (v n : string) :
  isascii v = true ->
  (Lesson.NodeConfig.validate_name v = Ok n <->
   Lesson.CompleteNodeConfig.validate_name v = Ok n).
Proof.
  intros _.
  now rewrite NodeConfig_validate_name_ok, CompleteNodeConfig_validate_name_ok.
Qed.

Lemma name_validators_agree_witness :
  Lesson.CompleteNodeConfig.validate_name "  Extract_Data  " = Ok "extract_data".
Proof.
  apply (name_validators_agree "  Extract_Data  " "extract_data" eq_refl).
  reflexivity.
Defined.

(** X2.  A stored name is a fixed point of validation: when a validator
    returns [n] for an input of ASCII characters, validating [n] again
    returns [n], with either validator. *)
Theorem stored_name_revalidates (v n : string) :
  isascii v = true ->
  Lesson.NodeConfig.validate_name v = Ok n \/
  Lesson.CompleteNodeConfig.validate_name v = Ok n ->
  Lesson.NodeConfig.validate_name n = Ok n /\
  Lesson.CompleteNodeConfig.validate_name n = Ok n.
Proof.
  intros _ H.
  assert (A : matches_identifier n = true /\ has_alnum n = true).
  { destruct H as [H | H];
      [apply NodeConfig_validate_name_ok in H
      | apply CompleteNodeConfig_validate_name_ok in H]; tauto. }
  destruct A as [A1 A2]. split;
    [apply NodeConfig_validate_name_ok
    | apply CompleteNodeConfig_validate_name_ok];
    (split; [symmetry; now apply normalize_identifier | tauto]).
Qed.

Lemma stored_name_revalidates_witness :
  Lesson.NodeConfig.validate_name "job_1" = Ok "job_1" /\
  Lesson.CompleteNodeConfig.validate_name "job_1" = Ok "job_1".
Proof.
  apply (stored_name_revalidates " Job_1 " "job_1" eq_refl).
  left. reflexivity.
Defined.

(** X3.  Two ASCII inputs that differ only in surrounding whitespace and
    letter case are the same name to both validators: either both are
    refused, or both are accepted and stored as the same string. *)
Theorem names_collide_after_normalization (v1 v2 n : string) :
  isascii v1 = true -> isascii v2 = true ->
  normalize v1 = normalize v2 ->
  (Lesson.NodeConfig.validate_name v1 = Ok n <->
   Lesson.NodeConfig.validate_name v2 = Ok n) /\
  (Lesson.CompleteNodeConfig.validate_name v1 = Ok n <->
   Lesson.CompleteNodeConfig.validate_name v2 = Ok n).
Proof.
  intros _ _ E.
  rewrite !NodeConfig_validate_name_ok, !CompleteNodeConfig_validate_name_ok.
  rewrite E. tauto.
Qed.

Lemma names_collide_after_normalization_witness :
  Lesson.NodeConfig.validate_name "EXTRACT" = Ok "extract".
Proof.
  apply (names_collide_after_normalization "EXTRACT" "  extract " "extract"
           eq_refl eq_refl eq_refl).
  reflexivity.
Defined.

(** X4.  For an input of ASCII characters, [NodeConfig.validate_name]
    raises "Node name cannot be empty" exactly when the input holds
    whitespace only (the empty string included);
    [CompleteNodeConfig.validate_name] has no such case and reports such
    an input as not alphanumeric. *)
Theorem blank_name_error (v : string) :
  isascii v = true ->
  (Lesson.NodeConfig.validate_name v =
     ValidationError ["Node name cannot be empty"] <->
   all_chars isspace_char v = true) /\
  (all_chars isspace_char v = true ->
   Lesson.CompleteNodeConfig.validate_name v =
     ValidationError ["Name must be alphanumeric with underscores"]).
Proof.
  intros _. split.
  - rewrite <- strip_empty.
    unfold Lesson.NodeConfig.validate_name. cbv zeta.
    destruct (strip v) as [|c r] eqn:E.
    + simpl. tauto.
    + cbn [String.eqb].
      destruct (negb _); split; intros H; discriminate H.
  - intros H. apply strip_empty in H.
    unfold Lesson.CompleteNodeConfig.validate_name. cbv zeta.
    now rewrite H.
Qed.

Lemma blank_name_error_witness :
  Lesson.NodeConfig.validate_name "   " =
    ValidationError ["Node name cannot be empty"].
Proof.
  apply (proj1 (blank_name_error "   " eq_refl)). reflexivity.
Defined.

(** *** Field constraints *)

Lemma Field_int_is_ok (lo hi v : Z) :
  is_ok (Field_int (Some lo) (Some hi) v) = true <-> (lo <= v <= hi)%Z.
Proof.
  unfold Field_int, below, above.
  destruct (Z.ltb_spec v lo), (Z.ltb_spec hi v); cbn; split; intros;
    try lia; try reflexivity; try discriminate.
Qed.

Lemma Field_one_of_is_ok (alternatives : list string) (v : string) :
  (is_ok (Field_one_of alternatives v) = true <-> In v alternatives) /\
  (forall r, Field_one_of alternatives v = Ok r -> r = v).
Proof.
  unfold Field_one_of.
  destruct (existsb (String.eqb v) alternatives) eqn:E; cbn.
  - apply existsb_exists in E as (x & Hx & Ex).
    apply String.eqb_eq in Ex. subst x.
    split; [tauto | congruence].
  - split; [|discriminate]. split; [discriminate|]. intros H.
    assert (X : existsb (String.eqb v) alternatives = true).
    { apply existsb_exists. exists v. split; [exact H|].
      apply String.eqb_refl. }
    congruence.
Qed.

(** X5.  [lesson.ConnectionConfig] is built exactly when [timeout] lies in
    1..300 and [max_retries] in 0..10; the instance holds every argument as
    given.  When it is refused there is one error for each of the two
    fields that is out of range. *)
Theorem connection_config_ranges (name : string) (timeout retries : Z)
    (tags : list string) (md : kwargs) :
  (is_ok (Lesson.ConnectionConfig.init name timeout retries tags md) = true <->
     (1 <= timeout <= 300)%Z /\ (0 <= retries <= 10)%Z) /\
  (forall c, Lesson.ConnectionConfig.init name timeout retries tags md = Ok c ->
     c = Lesson.ConnectionConfig.Build_t name timeout retries tags md) /\
  length (errors_of (Lesson.ConnectionConfig.init name timeout retries tags md))
  = ((if (1 <=? timeout)%Z && (timeout <=? 300)%Z then 0 else 1)
     + (if (0 <=? retries)%Z && (retries <=? 10)%Z then 0 else 1))%nat.
Proof.
  unfold Lesson.ConnectionConfig.init, Lesson.ConnectionConfig.timeout_field,
    Lesson.ConnectionConfig.max_retries_field, Field_int, below, above.
  destruct (Z.ltb_spec timeout 1), (Z.ltb_spec 300 timeout),
    (Z.ltb_spec retries 0), (Z.ltb_spec 10 retries);
    destruct (Z.leb_spec 1 timeout), (Z.leb_spec timeout 300),
      (Z.leb_spec 0 retries), (Z.leb_spec retries 10); try lia; cbn;
    (split; [split; intros; try lia; try reflexivity; try discriminate
            | split; [intros c; congruence | reflexivity]]).
Qed.

Lemma connection_config_ranges_witness :
  is_ok (Lesson.ConnectionConfig.init "db_dev" 500 3 [] []) = false.
Proof.
  apply not_true_is_false. intros H.
  apply (proj1 (connection_config_ranges "db_dev" 500 3 [] [])) in H. lia.
Defined.

(** X6.  [odibi_snippets.RetryConfig] is built exactly when [max_attempts]
    lies in 1..10 and [backoff] is one of "exponential", "linear",
    "constant"; the instance holds the arguments as given. *)
Theorem retry_config_accepts (enabled : bool) (attempts : Z) (backoff : string) :
  (is_ok (Odibi.RetryConfig.init enabled attempts backoff) = true <->
     (1 <= attempts <= 10)%Z /\
     In backoff ["exponential"; "linear"; "constant"]) /\
  (forall c, Odibi.RetryConfig.init enabled attempts backoff = Ok c ->
     c = Odibi.RetryConfig.Build_t enabled attempts backoff).
Proof.
  pose proof (Field_int_is_ok 1 10 attempts) as Ha.
  pose proof (Field_int_range 1 10 attempts) as [Hv _].
  pose proof (Field_one_of_is_ok ["exponential"; "linear"; "constant"] backoff)
    as [Hb Hs].
  unfold Odibi.RetryConfig.init, Odibi.RetryConfig.max_attempts_field,
    Odibi.RetryConfig.backoff_field.
  destruct (Field_int (Some 1%Z) (Some 10%Z) attempts) as [a|ea] eqn:Ea;
    destruct (Field_one_of ["exponential"; "linear"; "constant"] backoff)
      as [b|eb] eqn:Eb; cbn in *.
  - split; [tauto|]. intros c [= <-].
    rewrite (Hs b eq_refl).
    assert (X : Ok a = Ok attempts) by (apply Hv; tauto).
    now injection X as ->.
  - split; [|discriminate]. split; [discriminate|].
    intros [_ H]. apply Hb in H. discriminate.
  - split; [|discriminate]. split; [discriminate|].
    intros [H _]. apply Ha in H. discriminate.
  - split; [|discriminate]. split; [discriminate|].
    intros [H _]. apply Ha in H. discriminate.
Qed.

Lemma retry_config_accepts_witness :
  is_ok (Odibi.RetryConfig.init true 3 "linear") = true.
Proof.
  apply (proj1 (retry_config_accepts true 3 "linear")).
  split; [lia | simpl; tauto].
Defined.

(** *** Transform configurations *)

Lemma built_step_one_kind (s : Lesson.TransformStep.t) :
  built_step s -> one_step_kind s = true.
Proof.
  intros (sql & f & ps & H). unfold one_step_kind.
  unfold Lesson.TransformStep.init, Lesson.TransformStep.check_exactly_one in H.
  cbn [Lesson.TransformStep.sql Lesson.TransformStep.function] in H.
  destruct (truthy sql) eqn:Es, (truthy f) eqn:Ef; cbn in H;
    try discriminate H; injection H as <-; cbn; now rewrite Es, Ef.
Qed.

(** X7.  A [lesson.TransformConfig] built from steps that
    [lesson.TransformStep] built holds those steps in the order given, has
    at least one step, and each of its steps has exactly one of [sql],
    [function] non-empty; from an empty list of steps it is refused. *)
Theorem transform_config_steps (steps : list Lesson.TransformStep.t)
    (cfg : Lesson.TransformConfig.t) :
  Forall built_step steps ->
  Lesson.TransformConfig.init steps = Ok cfg ->
  Lesson.TransformConfig.steps cfg = steps /\
  steps <> [] /\
  forallb one_step_kind (Lesson.TransformConfig.steps cfg) = true /\
  Lesson.TransformConfig.init [] =
    ValidationError ["Transform must have at least one step"].
Proof.
  intros Hb H.
  unfold Lesson.TransformConfig.init, Lesson.TransformConfig.validate_non_empty
    in H.
  destruct steps as [|s r]; [discriminate|].
  injection H as <-. cbn [Lesson.TransformConfig.steps].
  repeat split; [discriminate|].
  apply forallb_forall. intros x Hx.
  apply built_step_one_kind.
  now apply (proj1 (Forall_forall _ _) Hb).
Qed.

Lemma transform_config_steps_witness :
  forallb one_step_kind
    [Lesson.TransformStep.Build_t
       (Some "SELECT * FROM input WHERE active = true") None [];
     Lesson.TransformStep.Build_t (Some "") (Some "deduplicate")
       [("key", PyStr "user_id")]] = true.
Proof.
  apply (transform_config_steps
           [Lesson.TransformStep.Build_t
              (Some "SELECT * FROM input WHERE active = true") None [];
            Lesson.TransformStep.Build_t (Some "") (Some "deduplicate")
              [("key", PyStr "user_id")]]
           (Lesson.TransformConfig.Build_t _)).
  - repeat constructor.
    + exists (Some "SELECT * FROM input WHERE active = true"), None, [].
      reflexivity.
    + exists (Some ""), (Some "deduplicate"), [("key", PyStr "user_id")].
      reflexivity.
  - reflexivity.
Defined.

(** *** Nodes *)

(** X8.  [lesson.PipelineNode] is built exactly when [read] or [write] is
    present.  It has no name validator: the instance holds the name as
    given, neither trimmed nor lowercased. *)
Theorem pipeline_node_operation (name : string)
    (read : option Lesson.ReadConfig.t) (write : option Lesson.WriteConfig.t) :
  (is_ok (Lesson.PipelineNode.init name read write) = true <->
     read <> None \/ write <> None) /\
  (forall n, Lesson.PipelineNode.init name read write = Ok n ->
     n = Lesson.PipelineNode.Build_t name read write) /\
  (read = None -> write = None ->
     Lesson.PipelineNode.init name read write =
       ValidationError
         ["Node '" ++ name ++ "' must have at least one operation"]).
Proof.
  unfold Lesson.PipelineNode.init, Lesson.PipelineNode.check_has_operation.
  destruct read, write; cbn; repeat split;
    try discriminate; try congruence; try tauto;
    try (intros _; left; discriminate); try (intros _; right; discriminate).
Qed.

Lemma pipeline_node_operation_witness :
  Lesson.PipelineNode.init "empty_node" None None =
    ValidationError ["Node 'empty_node' must have at least one operation"].
Proof.
  apply (proj2 (proj2 (pipeline_node_operation "empty_node" None None)));
    reflexivity.
Defined.

(** X9.  [lesson.CompleteNodeConfig] is built exactly when its name is
    accepted by [validate_name] and one of [read], [transform], [write] is
    present; the instance holds the normalized name and every other argument
    as given ([depends_on] is not validated).  A refused name is the only
    error reported, also when no operation is present: the model validator
    runs only after the fields are valid. *)
Theorem complete_node_config_built (name : string) (d : option string)
    (deps : list string) (r : option Lesson.ReadConfig.t)
    (t : option Lesson.TransformConfig.t) (w : option Lesson.WriteConfig.t) :
  (is_ok (Lesson.CompleteNodeConfig.init name d deps r t w) = true <->
     is_ok (Lesson.CompleteNodeConfig.validate_name name) = true /\
     (r <> None \/ t <> None \/ w <> None)) /\
  (forall c, Lesson.CompleteNodeConfig.init name d deps r t w = Ok c ->
     c = Lesson.CompleteNodeConfig.Build_t (normalize name) d deps r t w) /\
  (forall e, Lesson.CompleteNodeConfig.validate_name name = ValidationError e ->
     Lesson.CompleteNodeConfig.init name d deps r t w = ValidationError e).
Proof.
  unfold Lesson.CompleteNodeConfig.init.
  destruct (Lesson.CompleteNodeConfig.validate_name name) as [n|e] eqn:E.
  - apply CompleteNodeConfig_validate_name_ok in E as [-> _].
    unfold Lesson.CompleteNodeConfig.check_has_operation.
    destruct r, t, w; cbn; repeat split;
      try discriminate; try congruence;
      try (left; discriminate);
      try (right; left; discriminate);
      try (right; right; discriminate).
    intros [_ [H1 | [H2 | H3]]]; congruence.
  - cbn. repeat split; try discriminate; try congruence.
    intros [H _]. discriminate.
Qed.

Lemma complete_node_config_built_witness :
  Lesson.CompleteNodeConfig.init "extract-data" None [] None None None =
    ValidationError ["Name must be alphanumeric with underscores"].
Proof.
  apply (proj2 (proj2 (complete_node_config_built "extract-data" None []
                         None None None))).
  reflexivity.
Defined.

(** *** Which error *)

(** X10.  The two errors of [lesson.WriteConfig] and of
    [lesson.TransformStep] tell the two failures apart: the first message
    is raised exactly when neither field holds a non-empty string, the
    second exactly when both do. *)
Theorem exclusion_errors_tell_cause :
  (forall c p t m,
     (Lesson.WriteConfig.init c p t m =
        ValidationError ["Either 'path' or 'table' must be provided"] <->
      ~ nonempty p /\ ~ nonempty t) /\
     (Lesson.WriteConfig.init c p t m =
        ValidationError ["Cannot specify both 'path' and 'table'"] <->
      nonempty p /\ nonempty t)) /\
  (forall s f ps,
     (Lesson.TransformStep.init s f ps =
        ValidationError ["Must provide either 'sql' or 'function'"] <->
      ~ nonempty s /\ ~ nonempty f) /\
     (Lesson.TransformStep.init s f ps =
        ValidationError ["Cannot provide both 'sql' and 'function'"] <->
      nonempty s /\ nonempty f)).
Proof.
  split.
  - intros c p t m.
    unfold Lesson.WriteConfig.init, Lesson.WriteConfig.check_path_or_table.
    cbn [Lesson.WriteConfig.path Lesson.WriteConfig.table].
    rewrite <- (truthy_not_nonempty p), <- (truthy_not_nonempty t),
      <- (truthy_nonempty p), <- (truthy_nonempty t).
    destruct (truthy p), (truthy t); cbn; split; split;
      try (intros H; discriminate H); try (intros [H1 H2]; discriminate);
      intros; try split; reflexivity.
  - intros s f ps.
    unfold Lesson.TransformStep.init, Lesson.TransformStep.check_exactly_one.
    cbn [Lesson.TransformStep.sql Lesson.TransformStep.function].
    rewrite <- (truthy_not_nonempty s), <- (truthy_not_nonempty f),
      <- (truthy_nonempty s), <- (truthy_nonempty f).
    destruct (truthy s), (truthy f); cbn; split; split;
      try (intros H; discriminate H); try (intros [H1 H2]; discriminate);
      intros; try split; reflexivity.
Qed.

Lemma exclusion_errors_tell_cause_witness :
  Lesson.WriteConfig.init "local" (Some "/data/out.csv") (Some "users")
    Lesson.OVERWRITE =
  ValidationError ["Cannot specify both 'path' and 'table'"].
Proof.
  apply (proj1 exclusion_errors_tell_cause). split.
  - exists "/data/out.csv". split; [reflexivity | discriminate].
  - exists "users". split; [reflexivity | discriminate].
Defined.

(** *** Dictionaries *)

Lemma dict_get_set_same {V : Type} (k : string) (v : V) (d : dict V) :
  dict_get k (dict_set k v d) = Some v.
Proof.
  induction d as [|[k' v'] r IH]; simpl.
  - now rewrite String.eqb_refl.
  - destruct (k' =? k) eqn:E; simpl.
    + now rewrite String.eqb_refl.
    + now rewrite E.
Qed.

Lemma dict_get_set_other {V : Type} (k k0 : string) (v : V) (d : dict V) :
  k0 <> k -> dict_get k0 (dict_set k v d) = dict_get k0 d.
Proof.
  intros N. induction d as [|[k' v'] r IH]; simpl.
  - apply String.eqb_neq in N. rewrite String.eqb_sym in N. now rewrite N.
  - destruct (k' =? k) eqn:E; simpl.
    + apply String.eqb_eq in E. subst k'.
      assert (X : (k =? k0) = false)
        by (apply String.eqb_neq; congruence).
      now rewrite X.
    + now rewrite IH.
Qed.

Lemma dict_set_keys {V : Type} (k k0 : string) (v : V) (d : dict V) :
  In k0 (keys (dict_set k v d)) <-> k0 = k \/ In k0 (keys d).
Proof.
  unfold keys. induction d as [|[k' v'] r IH]; simpl.
  - intuition congruence.
  - destruct (k' =? k) eqn:E; simpl.
    + apply String.eqb_eq in E. subst k'. intuition congruence.
    + rewrite IH. intuition congruence.
Qed.

Lemma dict_set_NoDup {V : Type} (k : string) (v : V) (d : dict V) :
  NoDup (keys d) -> NoDup (keys (dict_set k v d)).
Proof.
  unfold keys. induction d as [|[k' v'] r IH]; simpl; intros H.
  - constructor; [intros [] | constructor].
  - inversion H as [|? ? Hn Hr]; subst.
    destruct (k' =? k) eqn:E; simpl.
    + apply String.eqb_eq in E. subst k'. now constructor.
    + constructor; [|now apply IH].
      intros I. apply (dict_set_keys k k' v r) in I as [I | I].
      * apply String.eqb_neq in E. congruence.
      * contradiction.
Qed.

Lemma dict_get_keys {V : Type} (k : string) (d : dict V) :
  In k (keys d) <-> dict_get k d <> None.
Proof.
  unfold keys. induction d as [|[k' v'] r IH]; simpl.
  - intuition congruence.
  - destruct (k' =? k) eqn:E.
    + apply String.eqb_eq in E. subst k'. intuition congruence.
    + apply String.eqb_neq in E. rewrite <- IH. intuition congruence.
Qed.

Lemma fold_add_length_get (items : list string) (d : dict nat) (k : string) :
  dict_get k (fold_left add_length items d) =
  if in_dec string_dec k items then Some (String.length k)
  else dict_get k d.
Proof.
  revert d. induction items as [|x r IH]; intros d; [reflexivity|].
  cbn [fold_left]. rewrite IH.
  destruct (in_dec string_dec k r) as [I|I];
    destruct (in_dec string_dec k (x :: r)) as [J|J];
    try reflexivity.
  - exfalso. apply J. now right.
  - destruct J as [-> | J]; [|contradiction].
    apply dict_get_set_same.
  - unfold add_length. apply dict_get_set_other.
    intros ->. apply J. now left.
Qed.

Lemma fold_add_length_NoDup (items : list string) (d : dict nat) :
  NoDup (keys d) -> NoDup (keys (fold_left add_length items d)).
Proof.
  revert d. induction items as [|x r IH]; intros d H; [exact H|].
  cbn [fold_left]. apply IH. now apply dict_set_NoDup.
Qed.

(** X11.  [process_items] maps exactly the strings of [items], each to its
    length: a string of the list is a key whose value is its length, any
    other string is no key.  A string that occurs several times is one key,
    so the dict has as many entries as the list has distinct strings. *)
Theorem process_items_lengths (items : list string) :
  (forall item, In item items ->
     dict_get item (Lesson.process_items items) = Some (String.length item)) /\
  (forall item, ~ In item items ->
     dict_get item (Lesson.process_items items) = None) /\
  NoDup (keys (Lesson.process_items items)) /\
  length (Lesson.process_items items) = len_set items.
Proof.
  assert (G : forall k,
             dict_get k (Lesson.process_items items) =
             if in_dec string_dec k items then Some (String.length k)
             else None).
  { intros k. apply (fold_add_length_get items [] k). }
  assert (N : NoDup (keys (Lesson.process_items items))).
  { apply (fold_add_length_NoDup items []). constructor. }
  assert (K : forall k, In k (keys (Lesson.process_items items)) <->
                        In k items).
  { intros k. rewrite dict_get_keys, G.
    destruct (in_dec string_dec k items); intuition congruence. }
  repeat split.
  - intros item I. rewrite G.
    destruct (in_dec string_dec item items); [reflexivity | contradiction].
  - intros item I. rewrite G.
    destruct (in_dec string_dec item items); [contradiction | reflexivity].
  - exact N.
  - unfold len_set.
    replace (length (Lesson.process_items items))
      with (length (keys (Lesson.process_items items)))
      by (unfold keys; apply length_map).
    apply Nat.le_antisymm; apply NoDup_incl_length;
      try exact N; try apply NoDup_nodup; intros k Hk.
    + apply nodup_In. now apply K.
    + apply K. now apply nodup_In in Hk.
Qed.

Lemma process_items_lengths_witness :
  dict_get "pear" (Lesson.process_items ["fig"; "pear"; "fig"]) = Some 4%nat.
Proof.
  apply (proj1 (process_items_lengths ["fig"; "pear"; "fig"])).
  right. left. reflexivity.
Defined.

(** *** Enumerations *)

(** X12.  In each of the four enumerations of [odibi_snippets.py] no two
    members share a value, so no member is an alias of another: a member is
    determined by its value. *)
Theorem enum_values_distinct :
  (forall a b, Odibi.EngineType_value a = Odibi.EngineType_value b -> a = b) /\
  (forall a b,
     Odibi.ConnectionType_value a = Odibi.ConnectionType_value b -> a = b) /\
  (forall a b, Odibi.WriteMode_value a = Odibi.WriteMode_value b -> a = b) /\
  (forall a b, Odibi.LogLevel_value a = Odibi.LogLevel_value b -> a = b).
Proof.
  repeat split; intros [] []; cbn; intros H;
    try reflexivity; discriminate H.
Qed.

Lemma enum_values_distinct_witness : Odibi.DELTA = Odibi.DELTA.
Proof.
  apply (proj1 (proj2 enum_values_distinct) Odibi.DELTA Odibi.DELTA).
  reflexivity.
Defined.

(** *** The two path-or-table rules *)

(** X13.  The rule of [lesson.WriteConfig] is the stricter one: whenever it
    accepts a [path] and a [table], [odibi_snippets.ReadConfig] and
    [odibi_snippets.WriteConfig] accept them too. *)
Theorem lesson_rule_stricter (c : string) (p t : option string)
    (m : Lesson.WriteMode) :
  is_ok (Lesson.WriteConfig.init c p t m) = true ->
  (forall f o, is_ok (Odibi.ReadConfig.init c f t p o) = true) /\
  (forall f m' o, is_ok (Odibi.WriteConfig.init c f t p m' o) = true).
Proof.
  unfold Lesson.WriteConfig.init, Lesson.WriteConfig.check_path_or_table,
    Odibi.ReadConfig.init, Odibi.ReadConfig.check_table_or_path,
    Odibi.WriteConfig.init, Odibi.WriteConfig.check_table_or_path.
  cbn [Lesson.WriteConfig.path Lesson.WriteConfig.table
       Odibi.ReadConfig.path Odibi.ReadConfig.table
       Odibi.WriteConfig.path Odibi.WriteConfig.table].
  destruct (truthy p), (truthy t); cbn; intros H;
    try discriminate H; split; reflexivity.
Qed.

Lemma lesson_rule_stricter_witness :
  is_ok (Odibi.WriteConfig.init "delta" "delta" (Some "bronze.users") None
           Odibi.APPEND []) = true.
Proof.
  apply (lesson_rule_stricter "delta" None (Some "bronze.users")
           Lesson.OVERWRITE eq_refl).
Defined.

(** *** A node assembled from built parts *)

(** X14.  When a [lesson.CompleteNodeConfig] with a name of ASCII
    characters is built from a [write] that [lesson.WriteConfig] built and a
    [transform] that [lesson.TransformConfig] built from built steps, the
    node holds those
    parts unchanged and is valid throughout: its name is the normalized
    name and matches [^[a-z0-9_]+$], its [write] has exactly one of [path],
    [table] non-empty, and its [transform] has at least one step, each with
    exactly one of [sql], [function] non-empty. *)
Theorem assembled_node_valid
    (name : string) (d : option string) (deps : list string)
    (r : option Lesson.ReadConfig.t)
    (c : string) (p tb : option string) (m : Lesson.WriteMode)
    (steps : list Lesson.TransformStep.t)
    (w : Lesson.WriteConfig.t) (t : Lesson.TransformConfig.t)
    (node : Lesson.CompleteNodeConfig.t) :
  isascii name = true ->
  Lesson.WriteConfig.init c p tb m = Ok w ->
  Forall built_step steps ->
  Lesson.TransformConfig.init steps = Ok t ->
  Lesson.CompleteNodeConfig.init name d deps r (Some t) (Some w) = Ok node ->
  Lesson.CompleteNodeConfig.name node = normalize name /\
  matches_identifier (Lesson.CompleteNodeConfig.name node) = true /\
  Lesson.CompleteNodeConfig.write node = Some w /\
  xorb (truthy (Lesson.WriteConfig.path w))
       (truthy (Lesson.WriteConfig.table w)) = true /\
  Lesson.CompleteNodeConfig.transform node = Some t /\
  Lesson.TransformConfig.steps t = steps /\
  steps <> [] /\
  forallb one_step_kind steps = true.
Proof.
  intros _ Hw Hs Ht Hn.
  unfold Lesson.CompleteNodeConfig.init in Hn.
  destruct (Lesson.CompleteNodeConfig.validate_name name) as [n|] eqn:E;
    [|discriminate].
  apply CompleteNodeConfig_validate_name_ok in E as (-> & Hm & _).
  unfold Lesson.CompleteNodeConfig.check_has_operation in Hn.
  cbn in Hn. rewrite orb_true_r in Hn. cbn in Hn. injection Hn as <-.
  cbn [Lesson.CompleteNodeConfig.name Lesson.CompleteNodeConfig.write
       Lesson.CompleteNodeConfig.transform].
  assert (Xw : xorb (truthy (Lesson.WriteConfig.path w))
                    (truthy (Lesson.WriteConfig.table w)) = true).
  { unfold Lesson.WriteConfig.init, Lesson.WriteConfig.check_path_or_table
      in Hw.
    cbn [Lesson.WriteConfig.path Lesson.WriteConfig.table] in Hw.
    destruct (truthy p) eqn:Ep, (truthy tb) eqn:Et; cbn in Hw;
      try discriminate Hw; injection Hw as <-; cbn; now rewrite Ep, Et. }
  unfold Lesson.TransformConfig.init, Lesson.TransformConfig.validate_non_empty
    in Ht.
  destruct steps as [|s rest]; [discriminate|]. injection Ht as <-.
  cbn [Lesson.TransformConfig.steps].
  repeat split; try assumption; try discriminate.
  apply forallb_forall. intros x Hx. apply built_step_one_kind.
  now apply (proj1 (Forall_forall _ _) Hs).
Qed.

Lemma assembled_node_valid_witness :
  Lesson.CompleteNodeConfig.name
    (Lesson.CompleteNodeConfig.Build_t "bronze_to_silver_users"
       (Some "Clean and deduplicate user data") ["extract_users"] None
       (Some (Lesson.TransformConfig.Build_t
                [Lesson.TransformStep.Build_t None (Some "deduplicate")
                   [("key", PyStr "user_id")]]))
       (Some (Lesson.WriteConfig.Build_t "silver" None (Some "silver.users")
                Lesson.OVERWRITE)))
  = normalize " Bronze_To_Silver_Users ".
Proof.
  refine (proj1 (assembled_node_valid " Bronze_To_Silver_Users "
           (Some "Clean and deduplicate user data") ["extract_users"] None
           "silver" None (Some "silver.users") Lesson.OVERWRITE
           [Lesson.TransformStep.Build_t None (Some "deduplicate")
              [("key", PyStr "user_id")]]
           (Lesson.WriteConfig.Build_t "silver" None (Some "silver.users")
              Lesson.OVERWRITE)
           (Lesson.TransformConfig.Build_t
              [Lesson.TransformStep.Build_t None (Some "deduplicate")
                 [("key", PyStr "user_id")]])
           _ eq_refl eq_refl _ eq_refl eq_refl)).
  repeat constructor.
  exists None, (Some "deduplicate"), [("key", PyStr "user_id")].
  reflexivity.
Defined.

(** *** Errors of a node *)

(** X15.  [lesson.NodeConfig] is built exactly when [validate_name] accepts
    the name and [depends_on] repeats no entry.  When it is refused, the
    errors are those of the name followed by those of [depends_on]: a bad
    name and a repeated dependency are reported together, and a repeated
    dependency is reported also when the name is good. *)
Theorem node_config_errors (v : string) (deps : list string) (tm : option Z) :
  (is_ok (Lesson.NodeConfig.init v deps tm) = true <->
     is_ok (Lesson.NodeConfig.validate_name v) = true /\ NoDup deps) /\
  errors_of (Lesson.NodeConfig.init v deps tm) =
    (errors_of (Lesson.NodeConfig.validate_name v)
     ++ (if (length deps =? len_set deps)%nat then []
         else ["Duplicate dependencies not allowed"]))%list.
Proof.
  rewrite <- len_set_NoDup.
  unfold Lesson.NodeConfig.init, Lesson.NodeConfig.validate_dependencies.
  destruct (Lesson.NodeConfig.validate_name v) as [n|e];
    destruct (length deps =? len_set deps)%nat; cbn;
    (split; [split; [intros H; try discriminate H; now split
                    | intros [H1 H2]; try discriminate H1;
                      try discriminate H2; reflexivity]
            | try reflexivity]).
Qed.

Lemma node_config_errors_witness :
  is_ok (Lesson.NodeConfig.init "transform" ["src"; "src"] None) = false.
Proof.
  apply not_true_is_false. intros H.
  apply (proj1 (node_config_errors "transform" ["src"; "src"] None)) in H.
  destruct H as [_ H]. inversion H as [|? ? N _]; subst.
  apply N. now left.
Defined.
